(** * A shallow embedding of [roku/core.py] (python-roku 3.0.0)

    The Python client talks to a Roku device over HTTP.  We model:
    - Python values that flow through the client ([pyval]);
    - the exceptions it raises ([exn]);
    - the HTTP transport as a state-and-error monad whose state is the
      ordered log of the requests issued so far, the device side being an
      arbitrary responder that may look at that log;
    - the classes [Application] and [Roku]/[RokuTV], with object identity of
      devices represented by an object id. *)

From Stdlib Require Import String Ascii ZArith List Bool Lia Sorting.Sorted Sorting.Permutation.
Import ListNotations.
Open Scope string_scope.

(** ** Python values *)

Inductive pyval :=
| PNone
| PInt (z : Z)
| PStr (s : string).

(** [==] on the values above (no coercion between int and str). *)
Definition py_eqb (a b : pyval) : bool :=
  match a, b with
  | PNone, PNone => true
  | PInt x, PInt y => Z.eqb x y
  | PStr x, PStr y => String.eqb x y
  | _, _ => false
  end.

(** Decimal digits of a natural number, as [str] prints them. *)
Fixpoint digits_aux (fuel : nat) (n : N) (acc : string) : string :=
  match fuel with
  | O => acc
  | S f =>
      let d := N.modulo n 10 in
      let c := ascii_of_N (48 + d) in
      let q := N.div n 10 in
      if N.eqb q 0 then String c acc else digits_aux f q (String c acc)
  end.

Definition str_of_N (n : N) : string := digits_aux (S (N.to_nat (N.log2 n))) n "".

Definition str_of_Z (z : Z) : string :=
  match z with
  | Z.neg p => "-" ++ str_of_N (Npos p)
  | _ => str_of_N (Z.to_N z)
  end.

(** [str(v)] *)
Definition py_str (v : pyval) : string :=
  match v with
  | PNone => "None"
  | PInt z => str_of_Z z
  | PStr s => s
  end.

(** ** Exceptions *)

Inductive exn :=
| RokuException (msg : string)
| AttributeError (msg : string)
| ValueError (msg : string)
| KeyError (key : string)
| IndexError
| TypeError (msg : string)
| XMLSyntaxError.

Inductive result (A : Type) :=
| Ok (a : A)
| Err (e : exn).
Arguments Ok {A} a.
Arguments Err {A} e.

(** ** HTTP requests and responses *)

Record request := mkRequest {
  rq_method : string;
  rq_url : string;
  (** [params=...] keyword argument, [None] when the call passes none *)
  rq_params : option (list (string * pyval))
}.

Record response := mkResponse {
  status_code : Z;
  content : string
}.

(** ** The transport monad

    A computation gets the log of requests issued so far and returns the
    extended log together with its outcome.  [srv] answers a request given
    the log before it. *)

Definition M (A : Type) := list request -> list request * result A.

Definition ret {A} (a : A) : M A := fun h => (h, Ok a).
Definition raise {A} (e : exn) : M A := fun h => (h, Err e).
Definition bind {A B} (m : M A) (k : A -> M B) : M B :=
  fun h => match m h with
           | (h', Ok a) => k a h'
           | (h', Err e) => (h', Err e)
           end.

Declare Scope roku_monad_scope.
Notation "x <- m ;; k" := (bind m (fun x => k))
  (at level 61, m at next level, right associativity) : roku_monad_scope.
Notation "m ;; k" := (bind m (fun _ => k))
  (at level 61, right associativity) : roku_monad_scope.
Open Scope roku_monad_scope.

Section Transport.

Variable srv : list request -> request -> response.

(** Issue one HTTP request: it is appended to the log and answered. *)
Definition issue (rq : request) : M response :=
  fun h => ((h ++ [rq])%list, Ok (srv h rq)).

End Transport.

(** ** Devices *)

Inductive roku_class := CRoku | CRokuTV.

(** A [Roku] object.  [roku_oid] stands for the object's identity ([is]);
    [supported_keys] is the instance's dict, kept as an association list in
    insertion order. *)
Record Roku := mkRoku {
  roku_oid : nat;
  roku_cls : roku_class;
  host : string;
  port : pyval;
  supported_keys : list (string * string)
}.

Definition ECP_KEYS : list (string * string) :=
  [("home", "Home"); ("reverse", "Rev"); ("forward", "Fwd");
   ("play", "Play"); ("select", "Select"); ("left", "Left");
   ("right", "Right"); ("down", "Down"); ("up", "Up"); ("back", "Back");
   ("replay", "InstantReplay"); ("info", "Info");
   ("backspace", "Backspace"); ("search", "Search"); ("enter", "Enter");
   ("literal", "Lit")].

Definition ROKUTV_KEYS : list (string * string) :=
  [("channel_down", "ChannelDown"); ("channel_up", "ChannelUp");
   ("mute", "VolumeMute"); ("power", "Power"); ("power_on", "PowerOn");
   ("power_off", "PowerOff"); ("volume_down", "VolumeDown");
   ("volume_up", "VolumeUp")].

Definition SENSORS : list string :=
  ["acceleration"; "magnetic"; "orientation"; "rotation"].

(** [k in l] for a tuple of strings *)
Definition str_in (k : string) (l : list string) : bool :=
  existsb (String.eqb k) l.

(** [k in d] for a dict *)
Definition dict_in {V} (k : string) (d : list (string * V)) : bool :=
  existsb (fun kv => String.eqb k (fst kv)) d.

(** [d[k]], [None] standing for [KeyError] *)
Fixpoint dict_get {V} (d : list (string * V)) (k : string) : option V :=
  match d with
  | [] => None
  | (k', v) :: d' => if String.eqb k k' then Some v else dict_get d' k
  end.

(** [d[k] = v]: overwrite in place, or append a new key *)
Fixpoint dict_setitem {V} (d : list (string * V)) (k : string) (v : V)
  : list (string * V) :=
  match d with
  | [] => [(k, v)]
  | (k', v') :: d' =>
      if String.eqb k k' then (k, v) :: d' else (k', v') :: dict_setitem d' k v
  end.

(** [d.update(e)] *)
Definition dict_update {V} (d e : list (string * V)) : list (string * V) :=
  fold_left (fun acc kv => dict_setitem acc (fst kv) (snd kv)) e d.

(** [Roku(host, port)]: [self.supported_keys = ECP_KEYS.copy()] *)
Definition Roku_new (oid : nat) (h : string) (p : pyval) : Roku :=
  mkRoku oid CRoku h p ECP_KEYS.

(** [RokuTV(host, port)]: the base constructor, then
    [self.supported_keys.update(ROKUTV_KEYS)] *)
Definition RokuTV_new (oid : nat) (h : string) (p : pyval) : Roku :=
  let r := Roku_new oid h p in
  mkRoku oid CRokuTV h p (dict_update (supported_keys r) ROKUTV_KEYS).

(** ** Applications *)

Record Application := mkApplication {
  app_id : string;
  app_version : pyval;
  app_name : pyval;
  app_roku : option Roku
}.

(** [Application(id, version, name, roku=None)]: [self.id = str(id)] *)
Definition Application_new (id version name : pyval) (roku : option Roku)
  : Application :=
  mkApplication (py_str id) version name roku.

(** The objects an [Application] may be compared with. *)
Inductive pyobj :=
| OApp (a : Application)
| ODevice (r : Roku)
| OVal (v : pyval).

(** [Application.__eq__]:
    [isinstance(other, Application) and (self.id, self.version) == (other.id, other.version)] *)
Definition Application_eq (self : Application) (other : pyobj) : bool :=
  match other with
  | OApp o =>
      String.eqb (app_id self) (app_id o) && py_eqb (app_version self) (app_version o)
  | _ => false
  end.

(** [app.roku != self] on devices: [Roku] has no [__eq__], so it compares
    identities. *)
Definition roku_ne (a b : Roku) : bool := negb (Nat.eqb (roku_oid a) (roku_oid b)).

(** ** Parsed XML

    [ET.fromstring] is lxml's; the client only uses the element tree it
    returns: [find] on direct children, [get] on attributes and [.text]. *)

Unset Elimination Schemes.
Inductive xml :=
| Elem (tag : string) (attrs : list (string * string)) (text : option string)
       (children : list xml).
Set Elimination Schemes.

(** [e.find(t)]: the first direct child whose tag is [t] *)
Definition xml_find (e : xml) (t : string) : option xml :=
  match e with
  | Elem _ _ _ cs =>
      find (fun c => match c with Elem t' _ _ _ => String.eqb t t' end) cs
  end.

(** [e.get(k)] *)
Definition xml_get (e : xml) (k : string) : pyval :=
  match e with
  | Elem _ a _ _ => match dict_get a k with Some v => PStr v | None => PNone end
  end.

(** [e.text] *)
Definition xml_text (e : xml) : pyval :=
  match e with
  | Elem _ _ (Some s) _ => PStr s
  | Elem _ _ None _ => PNone
  end.

(** ** Attribute lookup on a device

    Normal lookup finds the instance attributes, the methods and properties
    of the class and of [object]; only when it fails does Python call
    [Roku.__getattr__]. *)

Definition OBJECT_ATTRS : list string :=
  ["__class__"; "__delattr__"; "__dict__"; "__dir__"; "__doc__"; "__eq__";
   "__format__"; "__ge__"; "__getattribute__"; "__getstate__"; "__gt__";
   "__hash__"; "__init__"; "__init_subclass__"; "__le__"; "__lt__";
   "__module__"; "__ne__"; "__new__"; "__reduce__"; "__reduce_ex__";
   "__repr__"; "__setattr__"; "__sizeof__"; "__str__"; "__subclasshook__";
   "__weakref__"].

Definition ROKU_CLASS_ATTRS : list string :=
  ["discover"; "__init__"; "__repr__"; "__getattr__"; "__getitem__";
   "_app_for_name"; "_app_for_id"; "_connect"; "_get"; "_post"; "_call";
   "apps"; "device_info"; "commands"; "icon"; "launch"; "store"; "input";
   "touch"; "current_app"; "is_tv"].

Definition ROKUTV_CLASS_ATTRS : list string :=
  ["INPUT_AV1"; "INPUT_HDMI1"; "INPUT_HDMI2"; "INPUT_HDMI3"; "INPUT_HDMI4";
   "INPUT_TUNER"; "TV_INPUTS"; "set_input"; "current_power_mode"].

(** set by [Roku.__init__] *)
Definition ROKU_INSTANCE_ATTRS : list string :=
  ["host"; "port"; "_conn"; "supported_keys"].

Definition regular_attr (self : Roku) (name : string) : bool :=
  str_in name (ROKU_INSTANCE_ATTRS ++ ROKU_CLASS_ATTRS
               ++ (match roku_cls self with CRokuTV => ROKUTV_CLASS_ATTRS | CRoku => [] end)
               ++ OBJECT_ATTRS).

(** What [getattr(roku, name)] yields: an ordinary attribute, or the
    [command] closure built by [__getattr__]. *)
Inductive attr :=
| Regular (name : string)
| Command (name : string).

(** [Roku.__getattr__]: it only builds the closure; nothing is sent. *)
Definition Roku___getattr__ (self : Roku) (name : string) : result attr :=
  if negb (dict_in name (supported_keys self)) && negb (str_in name SENSORS)
  then Err (AttributeError (name ++ " is not a valid key or sensor"))
  else Ok (Command name).

Definition roku_getattr (self : Roku) (name : string) : result attr :=
  if regular_attr self name then Ok (Regular name) else Roku___getattr__ self name.

(** [Roku.is_tv]: [isinstance(self, RokuTV)] *)
Definition is_tv (self : Roku) : bool :=
  match roku_cls self with CRokuTV => true | CRoku => false end.

(** Python's [sorted] on strings, as an insertion sort; on strings the
    ordering is total and equal strings are identical, so every correct
    sort gives this list. *)
Fixpoint insert_sorted (x : string) (l : list string) : list string :=
  match l with
  | [] => [x]
  | y :: l' => if String.leb x y then x :: l else y :: insert_sorted x l'
  end.

Definition sorted_strs (l : list string) : list string := fold_right insert_sorted [] l.

(** [Roku.commands]: [sorted(self.supported_keys.keys())] *)
Definition commands (self : Roku) : list string :=
  sorted_strs (map fst (supported_keys self)).

Definition TOUCH_OPS : list string := ["up"; "down"; "press"; "move"; "cancel"].

Definition TV_INPUTS : list string := ["AV1"; "HDMI1"; "HDMI2"; "HDMI3"; "HDMI4"; "Tuner"].

(** [v in (s1, s2, ...)] for a tuple of strings *)
Definition py_in_strs (v : pyval) (l : list string) : bool :=
  match v with PStr s => str_in s l | _ => false end.

(** [type(v).__name__] *)
Definition py_type_name (v : pyval) : string :=
  match v with PNone => "NoneType" | PInt _ => "int" | PStr _ => "str" end.

(** [''.join(items)] *)
Fixpoint py_join_from (i : nat) (items : list pyval) : result string :=
  match items with
  | [] => Ok ""
  | PStr s :: items' =>
      match py_join_from (S i) items' with Ok r => Ok (s ++ r) | Err e => Err e end
  | v :: _ =>
      Err (TypeError ("sequence item " ++ str_of_N (N.of_nat i) ++ ": expected str instance, "
                      ++ py_type_name v ++ " found"))
  end.

Definition py_join (items : list pyval) : result string := py_join_from 0 items.

(** [root.find(t).text]; [find] gives [None] when no child has that tag *)
Definition find_text (root : xml) (t : string) : result pyval :=
  match xml_find root t with
  | Some n => Ok (xml_text n)
  | None => Err (AttributeError "'NoneType' object has no attribute 'text'")
  end.

Record DeviceInfo := mkDeviceInfo {
  model_name : pyval;
  model_num : pyval;
  software_version : pyval;
  serial_num : pyval
}.

(** [a.roku = self] on a freshly deserialized application *)
Definition set_roku (self : Roku) (a : Application) : Application :=
  mkApplication (app_id a) (app_version a) (app_name a) (Some self).

(** a pure outcome inside the monad *)
Definition lift {A} (r : result A) : M A := fun h => (h, r).

(** Reading a property.  When the getter raises [AttributeError], Python
    drops that error and calls [Roku.__getattr__(name)] instead: its error,
    or the command closure it returns, is what the read gives. *)
Inductive prop_value (A : Type) : Type :=
| PropValue (a : A)
| PropCommand (c : attr).

Arguments PropValue {A} a.
Arguments PropCommand {A} c.

Definition property_get {A} (self : Roku) (name : string) (getter : M A) : M (prop_value A) :=
  fun h =>
    let (h', r) := getter h in
    (h', match r with
         | Ok a => Ok (PropValue a)
         | Err (AttributeError _) =>
             match Roku___getattr__ self name with
             | Ok c => Ok (PropCommand c)
             | Err e => Err e
             end
         | Err e => Err e
         end).

(** Python's text semantics, on which the ["literal"] command relies:
    [py_iter s] is the list of one-character strings [for char in s] goes
    through (one per code point, so [len(s)] is its length), and
    [py_upper] is [str.upper], whose Unicode case table (['ß'.upper()] is
    ['SS']) is not part of the program.  Both are parameters. *)
Class PyText : Type := {
  py_iter : string -> list string;
  py_upper : string -> string
}.

(** ** Transport: [_call], [_get], [_post] *)

Section Client.

Variable srv : list request -> request -> response.

(** [url = 'http://%s:%s%s' % (self.host, self.port, path)] *)
Definition call_url (self : Roku) (path : string) : string :=
  "http://" ++ host self ++ ":" ++ py_str (port self) ++ path.

(** [Roku._call]; the lazily created session and the debug log have no
    effect on what is sent or returned. *)
Definition _call (self : Roku) (method path : string)
  (params : option (list (string * pyval))) : M string :=
  let url := call_url self path in
  if negb (str_in method ["GET"; "POST"])
  then raise (ValueError "only GET and POST HTTP methods are supported")
  else
    resp <- issue srv (mkRequest method url params) ;;
    if negb (Z.eqb (status_code resp) 200)
    then raise (RokuException (content resp))
    else ret (content resp).

Definition _get (self : Roku) (path : string) (params : option (list (string * pyval)))
  : M string := _call self "GET" path params.

Definition _post (self : Roku) (path : string) (params : option (list (string * pyval)))
  : M string := _call self "POST" path params.


(** [Roku.input] *)
Definition input (self : Roku) (params : list (string * pyval)) : M string :=
  _post self "/input" (Some params).

Context {T : PyText}.

(** The [for char in args[0]] loop of the ["literal"] branch, over the
    characters of the string; the key token is looked up again at each
    character, as in the source. *)
Fixpoint literal_loop (self : Roku) (name : string) (chars : list string) : M unit :=
  match chars with
  | [] => ret tt
  | c :: chars' =>
      match dict_get (supported_keys self) name with
      | None => raise (KeyError name)
      | Some tok =>
          _post self ("/keypress/" ++ tok ++ "_" ++ py_upper c) None ;;
          literal_loop self name chars'
      end
  end.

(** The closure [command( *args)] returned by [__getattr__] for [name]. *)
Definition command (self : Roku) (name : string) (args : list pyval) : M unit :=
  if str_in name SENSORS then
    let keys := map (fun axis => name ++ "." ++ axis) ["x"; "y"; "z"] in
    let params := combine keys args in
    input self params ;; ret tt
  else if String.eqb name "literal" then
    match args with
    | [] => raise IndexError
    | PStr s :: _ => literal_loop self name (py_iter s)
    | PInt _ :: _ => raise (TypeError "'int' object is not iterable")
    | PNone :: _ => raise (TypeError "'NoneType' object is not iterable")
    end
  else
    match dict_get (supported_keys self) name with
    | None => raise (KeyError name)
    | Some tok => _post self ("/keypress/" ++ tok) None ;; ret tt
    end.

(** [Roku.icon] *)
Definition icon (self : Roku) (app : Application) : M string :=
  _get self ("/query/icon/" ++ app_id app) None.

(** [Roku.launch] *)
Definition launch (self : Roku) (app : Application) : M string :=
  if match app_roku app with Some r => roku_ne r self | None => false end
  then raise (RokuException "this app belongs to another Roku")
  else _post self ("/launch/" ++ app_id app) (Some [("contentID", PStr (app_id app))]).

(** [Roku.store] *)
Definition store (self : Roku) (app : Application) : M string :=
  _post self "/launch/11" (Some [("contentID", PStr (app_id app))]).

(** [Application.icon]: [if self.roku: return self.roku.icon(self)];
    a device object is always truthy. *)
Definition Application_icon (a : Application) : M pyval :=
  match app_roku a with
  | Some r => x <- icon r a ;; ret (PStr x)
  | None => ret PNone
  end.

(** [Application.launch] *)
Definition Application_launch (a : Application) : M pyval :=
  match app_roku a with
  | Some r => launch r a ;; ret PNone
  | None => ret PNone
  end.

(** [Application.store] *)
Definition Application_store (a : Application) : M pyval :=
  match app_roku a with
  | Some r => store r a ;; ret PNone
  | None => ret PNone
  end.

Variable parse_xml : string -> option xml.

(** [Roku.current_app] *)
Definition current_app (self : Roku) : M (option Application) :=
  resp <- _get self "/query/active-app" None ;;
  match parse_xml resp with
  | None => raise XMLSyntaxError
  | Some root =>
      let app_node :=
        match xml_find root "screensaver" with
        | Some n => Some n
        | None => xml_find root "app"
        end in
      match app_node with
      | None => ret None
      | Some n =>
          ret (Some (Application_new (xml_get n "id") (xml_get n "version")
                                     (xml_text n) (Some self)))
      end
  end.

(** [ET.fromstring(resp)] *)
Definition parse (resp : string) : M xml :=
  match parse_xml resp with Some root => ret root | None => raise XMLSyntaxError end.

(** [Roku.touch] *)
Definition touch (self : Roku) (x y op : pyval) : M pyval :=
  if negb (py_in_strs op TOUCH_OPS)
  then raise (RokuException (py_str op ++ " is not a valid touch operation"))
  else input self [("touch.0.x", x); ("touch.0.y", y); ("touch.0.op", op)] ;; ret PNone.

(** [RokuTV.set_input]: ['/keypress/Input{}'.format(tv_input)] *)
Definition set_input (self : Roku) (tv_input : pyval) : M string :=
  if negb (py_in_strs tv_input TV_INPUTS)
  then raise (RokuException (py_str tv_input ++ " is not a valid TV input"))
  else _post self ("/keypress/Input" ++ py_str tv_input) None.

(** [Roku.device_info]; the keyword arguments are evaluated left to right *)
Definition device_info (self : Roku) : M DeviceInfo :=
  resp <- _get self "/query/device-info" None ;;
  root <- parse resp ;;
  mname <- lift (find_text root "model-name") ;;
  mnum <- lift (find_text root "model-number") ;;
  sver <- lift (find_text root "software-version") ;;
  sbuild <- lift (find_text root "software-build") ;;
  sw <- lift (py_join [sver; PStr "."; sbuild]) ;;
  serial <- lift (find_text root "serial-number") ;;
  ret (mkDeviceInfo mname mnum (PStr sw) serial).


(** [roku.device_info], the property read *)
Definition device_info_prop (self : Roku) : M (prop_value DeviceInfo) :=
  property_get self "device_info" (device_info self).


(** [util.deserialize_apps] is not among the sources: it is a parameter
    here, and what follows holds for any deserializer. *)
Variable deserialize_apps : string -> result (list Application).

(** [Roku.apps] *)
Definition apps (self : Roku) : M (list Application) :=
  resp <- _get self "/query/apps" None ;;
  applications <- lift (deserialize_apps resp) ;;
  ret (map (set_roku self) applications).

(** [self.apps], the property read *)
Definition apps_prop (self : Roku) : M (prop_value (list Application)) :=
  property_get self "apps" (apps self).

(** [for app in self.apps]: a command closure is not iterable *)
Definition apps_iter (self : Roku) : M (list Application) :=
  v <- apps_prop self ;;
  match v with
  | PropValue l => ret l
  | PropCommand _ => raise (TypeError "'function' object is not iterable")
  end.

(** [Roku._app_for_name] *)
Definition _app_for_name (self : Roku) (name : string) : M (option Application) :=
  l <- apps_iter self ;;
  ret (find (fun a => py_eqb (app_name a) (PStr name)) l).

(** [Roku._app_for_id] *)
Definition _app_for_id (self : Roku) (app_id' : string) : M (option Application) :=
  l <- apps_iter self ;;
  ret (find (fun a => String.eqb (app_id a) app_id') l).

(** [Roku.__getitem__]; an [Application] is always truthy, so only [None]
    falls through to the lookup by id. *)
Definition __getitem__ (self : Roku) (key : pyval) : M (option Application) :=
  let key := py_str key in
  app <- _app_for_name self key ;;
  match app with
  | Some a => ret (Some a)
  | None => _app_for_id self key
  end.

(** [discovery.discover] and [urlparse] are not among the sources: the
    locations found and the host name and port [urlparse] reads from each
    are parameters. *)
Variable urlparse_hostname : string -> string.
Variable urlparse_port : string -> pyval.

(** The loop of [Roku.discover] over the locations found; [next] supplies
    fresh object ids for the [Roku(...)] and [RokuTV(...)] objects built. *)
Fixpoint discover_from (next : nat) (locations : list string) : M (list Roku) :=
  match locations with
  | [] => ret []
  | loc :: rest =>
      let roku := Roku_new next (urlparse_hostname loc) (urlparse_port loc) in
      resp <- _get roku "/query/device-info" None ;;
      dinfo <- parse resp ;;
      is_tv_text <- lift (find_text dinfo "is-tv") ;;
      let dev := if py_eqb is_tv_text (PStr "true")
                 then RokuTV_new (S next) (urlparse_hostname loc) (urlparse_port loc)
                 else roku in
      rokus <- discover_from (S (S next)) rest ;;
      ret (dev :: rokus)
  end.

End Client.

(** ** Reading the spec: URL path encoding

    The spec asks for the uppercased character to be URL-path-encoded.  We
    read this as RFC 3986 [pchar] encoding, which keeps unreserved
    characters, sub-delimiters, [:] and [@] (so [!] is kept, as the spec's
    own example [_!] requires) and percent-encodes every other byte. *)

Definition hex_digit (n : nat) : ascii :=
  if (n <? 10)%nat then ascii_of_nat (48 + n) else ascii_of_nat (55 + n).

Definition pchar_safe (c : ascii) : bool :=
  let n := nat_of_ascii c in
  ((48 <=? n) && (n <=? 57))%nat || ((65 <=? n) && (n <=? 90))%nat
  || ((97 <=? n) && (n <=? 122))%nat
  || existsb (Ascii.eqb c) (list_ascii_of_string "-._~!$&'()*+,;=:@").

Definition path_encode_char (c : ascii) : string :=
  if pchar_safe c then String c EmptyString
  else let n := nat_of_ascii c in
       String "%" (String (hex_digit (n / 16)) (String (hex_digit (n mod 16)) EmptyString)).

(** the encoding of a whole string, byte by byte *)
Definition path_encode (s : string) : string :=
  fold_right (fun c acc => path_encode_char c ++ acc) "" (list_ascii_of_string s).

(** upper-casing of an ASCII letter *)
Definition ascii_upper (c : ascii) : ascii :=
  let n := nat_of_ascii c in
  if (97 <=? n)%nat && (n <=? 122)%nat then ascii_of_nat (n - 32) else c.

(** Python's text semantics on ASCII text, where a character is one byte
    and [str.upper] changes only [a]..[z].  The concrete checks below use
    only ASCII text, on which this agrees with Python. *)
Definition ascii_text : PyText := {|
  py_iter := fun s => map (fun c => String c EmptyString) (list_ascii_of_string s);
  py_upper := fun s => string_of_list_ascii (map ascii_upper (list_ascii_of_string s))
|}.

(** ** Shared fixtures for the concrete checks *)

Definition dev1 : Roku := Roku_new 1 "192.168.1.20" (PInt 8060).
Definition dev2 : Roku := Roku_new 2 "192.168.1.21" (PInt 8060).
Definition tv3 : Roku := RokuTV_new 3 "192.168.1.22" (PInt 8060).

(** a device that answers every request with 200 *)
Definition srv_ok : list request -> request -> response :=
  fun _ _ => mkResponse 200 "<ok/>".

(** a device that answers every request with 500 *)
Definition srv_fail : list request -> request -> response :=
  fun _ _ => mkResponse 500 "server error".

(** what [_call] makes of a response once the request has gone out *)
Definition checked_content (r : response) : result string :=
  if Z.eqb (status_code r) 200 then Ok (content r) else Err (RokuException (content r)).

(** * Properties *)

Lemma call_GET_POST srv self method path params h :
  str_in method ["GET"; "POST"] = true ->
  _call srv self method path params h =
  ((h ++ [mkRequest method (call_url self path) params])%list,
   checked_content (srv h (mkRequest method (call_url self path) params))).
Proof.
  intros Hm. unfold _call. rewrite Hm. cbn [negb]. unfold bind, issue, checked_content.
  destruct (Z.eqb _ 200); reflexivity.
Qed.

Lemma get_eq srv self path params h :
  _get srv self path params h =
  ((h ++ [mkRequest "GET" (call_url self path) params])%list,
   checked_content (srv h (mkRequest "GET" (call_url self path) params))).
Proof. apply call_GET_POST. reflexivity. Qed.

Lemma post_eq srv self path params h :
  _post srv self path params h =
  ((h ++ [mkRequest "POST" (call_url self path) params])%list,
   checked_content (srv h (mkRequest "POST" (call_url self path) params))).
Proof. apply call_GET_POST. reflexivity. Qed.

(** C7: a GET or POST through [_get]/[_post] issues its one request; a
    response whose status is not 200 raises [RokuException] carrying the
    raw body, a 200 response returns the body. *)
Theorem transport_status_C7 :
  forall srv self method path params h,
  (method = "GET" \/ method = "POST") ->
  let rq := mkRequest method (call_url self path) params in
  (status_code (srv h rq) <> 200%Z ->
     _call srv self method path params h
     = ((h ++ [rq])%list, Err (RokuException (content (srv h rq))))) /\
  (status_code (srv h rq) = 200%Z ->
     _call srv self method path params h = ((h ++ [rq])%list, Ok (content (srv h rq)))).
Proof.
  intros srv self method path params h Hm rq.
  assert (Hin : str_in method ["GET"; "POST"] = true)
    by (destruct Hm as [-> | ->]; reflexivity).
  rewrite (call_GET_POST srv self method path params h Hin).
  fold rq. unfold checked_content. split; intros Hs.
  - apply Z.eqb_neq in Hs. now rewrite Hs.
  - apply Z.eqb_eq in Hs. now rewrite Hs.
Qed.

Lemma transport_status_C7_witness :
  _call srv_fail dev1 "GET" "/query/apps" None []
  = ([mkRequest "GET" "http://192.168.1.20:8060/query/apps" None],
     Err (RokuException "server error")) /\
  _call srv_ok dev1 "POST" "/keypress/Home" None []
  = ([mkRequest "POST" "http://192.168.1.20:8060/keypress/Home" None], Ok "<ok/>").
Proof.
  split.
  - exact (proj1 (transport_status_C7 srv_fail dev1 "GET" "/query/apps" None []
                    (or_introl eq_refl)) ltac:(cbv; discriminate)).
  - exact (proj2 (transport_status_C7 srv_ok dev1 "POST" "/keypress/Home" None []
                    (or_intror eq_refl)) eq_refl).
Defined.

(** C1: [launch(app)] raises [RokuException] without any request when
    [app.roku] is set to a device object other than [self]; otherwise it
    issues exactly one POST to [/launch/<app.id>] with [contentID=<app.id>]. *)
Theorem launch_C1 :
  forall srv self app h,
  let rq := mkRequest "POST" (call_url self ("/launch/" ++ app_id app))
                      (Some [("contentID", PStr (app_id app))]) in
  (forall r, app_roku app = Some r -> roku_oid r <> roku_oid self ->
     launch srv self app h = (h, Err (RokuException "this app belongs to another Roku"))) /\
  ((app_roku app = None \/ exists r, app_roku app = Some r /\ roku_oid r = roku_oid self) ->
     launch srv self app h = ((h ++ [rq])%list, checked_content (srv h rq))).
Proof.
  intros srv self app h rq. split.
  - intros r Hr Hne. unfold launch. rewrite Hr. unfold roku_ne.
    apply Nat.eqb_neq in Hne. now rewrite Hne.
  - intros Hcase. unfold launch.
    destruct Hcase as [Hn | [r [Hr Heq]]].
    + rewrite Hn. apply post_eq.
    + rewrite Hr. unfold roku_ne. rewrite Heq, Nat.eqb_refl. apply post_eq.
Qed.

Lemma launch_C1_witness :
  let app := Application_new (PInt 12) (PStr "1.0") (PStr "Netflix") (Some dev2) in
  launch srv_ok dev1 app [] = ([], Err (RokuException "this app belongs to another Roku")) /\
  launch srv_ok dev2 app []
  = ([mkRequest "POST" "http://192.168.1.21:8060/launch/12" (Some [("contentID", PStr "12")])],
     Ok "<ok/>").
Proof.
  intros app. split.
  - exact (proj1 (launch_C1 srv_ok dev1 app []) dev2 eq_refl ltac:(discriminate)).
  - exact (proj2 (launch_C1 srv_ok dev2 app [])
                 (or_intror (ex_intro _ dev2 (conj eq_refl eq_refl)))).
Defined.

(** C9: [store(app)] has no cross-device check: for every application,
    also one whose [roku] is another device, it issues one POST to
    [/launch/11] with [contentID=<app.id>], and its only error is the
    protocol error of that request. *)
Theorem store_C9 :
  forall srv self app h,
  let rq := mkRequest "POST" (call_url self "/launch/11")
                      (Some [("contentID", PStr (app_id app))]) in
  store srv self app h = ((h ++ [rq])%list, checked_content (srv h rq)).
Proof. intros. apply post_eq. Qed.

(** C10: with [roku = None], [Application.launch()], [Application.store()]
    and [Application.icon] return [None] and issue no request. *)
Theorem app_methods_no_roku_C10 :
  forall srv a h, app_roku a = None ->
  Application_launch srv a h = (h, Ok PNone) /\
  Application_store srv a h = (h, Ok PNone) /\
  Application_icon srv a h = (h, Ok PNone).
Proof.
  intros srv a h Hn. unfold Application_launch, Application_store, Application_icon.
  rewrite Hn. repeat split.
Qed.

Lemma app_methods_no_roku_C10_witness :
  let a := Application_new (PStr "837") (PStr "2.1") (PStr "YouTube") None in
  Application_launch srv_ok a [] = ([], Ok PNone) /\
  Application_store srv_ok a [] = ([], Ok PNone) /\
  Application_icon srv_ok a [] = ([], Ok PNone).
Proof. apply app_methods_no_roku_C10. reflexivity. Defined.

Lemma py_eqb_refl v : py_eqb v v = true.
Proof. destruct v; simpl; [reflexivity | apply Z.eqb_refl | apply String.eqb_refl]. Qed.

(** C8: [a == b] holds iff [b] is an [Application] with the same stored
    [(id, version)]; name and device do not matter.  Since [id] is stored
    as [str(id)], ids [12] and ["12"] compare equal, while versions [1] and
    ["1"] do not. *)
Theorem Application_eq_C8 :
  (forall a b, Application_eq a b = true <->
     exists a', b = OApp a' /\ app_id a = app_id a'
                /\ py_eqb (app_version a) (app_version a') = true) /\
  (forall v n n' r r',
     Application_eq (Application_new (PInt 12) v n r)
                    (OApp (Application_new (PStr "12") v n' r')) = true) /\
  (forall i n n' r r',
     Application_eq (Application_new i (PInt 1) n r)
                    (OApp (Application_new i (PStr "1") n' r')) = false).
Proof.
  split; [| split].
  - intros a b. split.
    + destruct b as [o | r | v]; simpl; try discriminate.
      intros H. apply andb_true_iff in H as [Hi Hv].
      apply String.eqb_eq in Hi. eauto.
    + intros [a' [-> [Hi Hv]]]. simpl. rewrite Hi, String.eqb_refl. exact Hv.
  - intros v n n' r r'. simpl. apply py_eqb_refl.
  - intros i n n' r r'. simpl. apply andb_false_r.
Qed.

(** what a sensor command sends: [dict(zip(keys, args))] *)
Lemma sensor_command_eq {T : PyText} srv self name args h :
  str_in name SENSORS = true ->
  let rq := mkRequest "POST" (call_url self "/input")
              (Some (combine (map (fun axis => name ++ "." ++ axis) ["x"; "y"; "z"]) args)) in
  command srv self name args h
  = ((h ++ [rq])%list,
     match checked_content (srv h rq) with Ok _ => Ok tt | Err e => Err e end).
Proof.
  intros Hs rq. unfold command. rewrite Hs. unfold input, bind.
  rewrite post_eq. fold rq. destruct (checked_content (srv h rq)); reflexivity.
Qed.

Lemma In_SENSORS_str_in name : In name SENSORS -> str_in name SENSORS = true.
Proof.
  intros H. unfold str_in. apply existsb_exists. exists name.
  split; [exact H | apply String.eqb_refl].
Qed.

(** C3: for a sensor group and three arguments [x, y, z], the command sends
    one POST to [/input] with exactly the parameters [<sensor>.x=x],
    [<sensor>.y=y], [<sensor>.z=z] and nothing else. *)
Theorem sensor_three_args_C3 :
  forall (T : PyText) srv self name x y z h,
  In name SENSORS ->
  let rq := mkRequest "POST" (call_url self "/input")
              (Some [(name ++ ".x", x); (name ++ ".y", y); (name ++ ".z", z)]) in
  command srv self name [x; y; z] h
  = ((h ++ [rq])%list,
     if Z.eqb (status_code (srv h rq)) 200 then Ok tt
     else Err (RokuException (content (srv h rq)))).
Proof.
  intros T srv self name x y z h Hin rq.
  rewrite (sensor_command_eq srv self name [x; y; z] h (In_SENSORS_str_in name Hin)).
  fold rq. unfold checked_content. destruct (Z.eqb _ 200); reflexivity.
Qed.

Lemma sensor_three_args_C3_witness :
  command (T:=ascii_text) srv_ok dev1 "rotation" [PInt 1; PInt (-2); PInt 3] []
  = ([mkRequest "POST" "http://192.168.1.20:8060/input"
        (Some [("rotation.x", PInt 1); ("rotation.y", PInt (-2)); ("rotation.z", PInt 3)])],
     Ok tt).
Proof.
  exact (sensor_three_args_C3 ascii_text srv_ok dev1 "rotation" (PInt 1) (PInt (-2)) (PInt 3) []
           ltac:(simpl; tauto)).
Defined.

(** C4, counterexample: with two arguments, [acceleration] raises no
    error; it posts [/input] with two parameters (and with four arguments
    the fourth is dropped). *)
Lemma sensor_args_C4_counterexample :
  command (T:=ascii_text) srv_ok dev1 "acceleration" [PInt 1; PInt 2] []
  = ([mkRequest "POST" "http://192.168.1.20:8060/input"
        (Some [("acceleration.x", PInt 1); ("acceleration.y", PInt 2)])], Ok tt) /\
  command (T:=ascii_text) srv_ok dev1 "acceleration" [PInt 1; PInt 2; PInt 3; PInt 4] []
  = ([mkRequest "POST" "http://192.168.1.20:8060/input"
        (Some [("acceleration.x", PInt 1); ("acceleration.y", PInt 2);
               ("acceleration.z", PInt 3)])], Ok tt).
Proof. split; reflexivity. Qed.

(** C4, as the code does it: for a sensor group and any argument list, the
    command raises no unsupported-command error; it sends one POST to
    [/input] pairing [<sensor>.x], [<sensor>.y], [<sensor>.z] with the
    arguments in order, cut to the shorter of the two lists, and fails only
    with the protocol error of that request. *)
Theorem sensor_any_args_C4 :
  forall (T : PyText) srv self name args h,
  In name SENSORS ->
  let rq := mkRequest "POST" (call_url self "/input")
              (Some (combine [name ++ ".x"; name ++ ".y"; name ++ ".z"] args)) in
  command srv self name args h
  = ((h ++ [rq])%list,
     if Z.eqb (status_code (srv h rq)) 200 then Ok tt
     else Err (RokuException (content (srv h rq)))).
Proof.
  intros T srv self name args h Hin rq.
  rewrite (sensor_command_eq srv self name args h (In_SENSORS_str_in name Hin)).
  fold rq. unfold checked_content. destruct (Z.eqb _ 200); reflexivity.
Qed.

Lemma sensor_any_args_C4_witness :
  command (T:=ascii_text) srv_fail dev1 "magnetic" [PInt 7] []
  = ([mkRequest "POST" "http://192.168.1.20:8060/input"
        (Some [("magnetic.x", PInt 7)])], Err (RokuException "server error")).
Proof.
  exact (sensor_any_args_C4 ascii_text srv_fail dev1 "magnetic" [PInt 7] [] ltac:(simpl; tauto)).
Defined.

(** C5, counterexample: ["touch"] is neither a key of a base [Roku] nor a
    sensor group, yet [roku.touch] raises nothing: normal attribute lookup
    finds the method and [__getattr__] is never called. *)
Lemma getattr_C5_counterexample :
  dict_in "touch" (supported_keys dev1) = false /\
  str_in "touch" SENSORS = false /\
  roku_getattr dev1 "touch" = Ok (Regular "touch").
Proof. repeat split; reflexivity. Qed.

(** C5, as the code does it: a name that normal attribute lookup does not
    find (no instance attribute, no method, property or constant of the
    device's class or of [object]) and that is neither in the instance's
    current key table nor a sensor group raises [AttributeError] when
    accessed; access is pure, so no request is made.  The table checked is
    the instance's: [channel_up] raises on a base [Roku] but not on a
    [RokuTV]. *)
Theorem getattr_unsupported_C5 :
  (forall self name,
     regular_attr self name = false ->
     dict_in name (supported_keys self) = false ->
     str_in name SENSORS = false ->
     roku_getattr self name = Err (AttributeError (name ++ " is not a valid key or sensor"))) /\
  (forall oid h p,
     roku_getattr (Roku_new oid h p) "channel_up"
     = Err (AttributeError "channel_up is not a valid key or sensor")) /\
  (forall oid h p, roku_getattr (RokuTV_new oid h p) "channel_up" = Ok (Command "channel_up")).
Proof.
  split; [| split].
  - intros self name Hr Hk Hs. unfold roku_getattr, Roku___getattr__.
    rewrite Hr, Hk, Hs. reflexivity.
  - intros. reflexivity.
  - intros. reflexivity.
Qed.

Lemma getattr_unsupported_C5_witness :
  roku_getattr dev1 "fly" = Err (AttributeError "fly is not a valid key or sensor") /\
  roku_getattr dev1 "volume_up" = Err (AttributeError "volume_up is not a valid key or sensor").
Proof.
  split.
  - exact (proj1 getattr_unsupported_C5 dev1 "fly" eq_refl eq_refl eq_refl).
  - exact (proj1 getattr_unsupported_C5 dev1 "volume_up" eq_refl eq_refl eq_refl).
Defined.

Lemma current_app_eq srv parse_xml self h root :
  let rq := mkRequest "GET" (call_url self "/query/active-app") None in
  status_code (srv h rq) = 200%Z ->
  parse_xml (content (srv h rq)) = Some root ->
  current_app srv parse_xml self h
  = ((h ++ [rq])%list,
     Ok (match (match xml_find root "screensaver" with
                | Some n => Some n
                | None => xml_find root "app"
                end) with
         | None => None
         | Some n => Some (Application_new (xml_get n "id") (xml_get n "version")
                                           (xml_text n) (Some self))
         end)).
Proof.
  intros rq Hs Hp. unfold current_app, bind. rewrite get_eq. fold rq.
  unfold checked_content. rewrite Hs. cbn [Z.eqb Pos.eqb]. rewrite Hp.
  destruct (match xml_find root "screensaver" with
            | Some n => Some n | None => xml_find root "app" end); reflexivity.
Qed.

(** C6: for a 200 response to [GET /query/active-app]: a [screensaver]
    child gives the application built from it, even when an [app] child is
    present; otherwise an [app] child gives the application built from it;
    otherwise [None].  Any application returned has the issuing device as
    its [roku]. *)
Theorem current_app_C6 :
  forall srv parse_xml self h root,
  let rq := mkRequest "GET" (call_url self "/query/active-app") None in
  let from_node n := Application_new (xml_get n "id") (xml_get n "version")
                                     (xml_text n) (Some self) in
  status_code (srv h rq) = 200%Z ->
  parse_xml (content (srv h rq)) = Some root ->
  (forall n, xml_find root "screensaver" = Some n ->
     current_app srv parse_xml self h = ((h ++ [rq])%list, Ok (Some (from_node n)))) /\
  (xml_find root "screensaver" = None -> forall n, xml_find root "app" = Some n ->
     current_app srv parse_xml self h = ((h ++ [rq])%list, Ok (Some (from_node n)))) /\
  (xml_find root "screensaver" = None -> xml_find root "app" = None ->
     current_app srv parse_xml self h = ((h ++ [rq])%list, Ok None)) /\
  (forall a, snd (current_app srv parse_xml self h) = Ok (Some a) -> app_roku a = Some self).
Proof.
  intros srv parse_xml self h root rq from_node Hs Hp.
  pose proof (current_app_eq srv parse_xml self h root Hs Hp) as E.
  split; [| split; [| split]].
  - intros n Hn. rewrite E, Hn. reflexivity.
  - intros H0 n Hn. rewrite E, H0, Hn. reflexivity.
  - intros H0 H1. rewrite E, H0, H1. reflexivity.
  - intros a Ha. rewrite E in Ha. simpl in Ha.
    destruct (match xml_find root "screensaver" with
              | Some n => Some n | None => xml_find root "app" end);
      inversion Ha; reflexivity.
Qed.

Definition active_app_both : xml :=
  Elem "active-app" []  None
    [Elem "app" [("id", "12"); ("version", "4.1.218")] (Some "Netflix") [];
     Elem "screensaver" [("id", "55545"); ("version", "2.0.1")]
          (Some "Roku Digital Clock") []].

Lemma current_app_C6_witness :
  current_app srv_ok (fun _ => Some active_app_both) dev1 []
  = ([mkRequest "GET" "http://192.168.1.20:8060/query/active-app" None],
     Ok (Some (Application_new (PStr "55545") (PStr "2.0.1")
                               (PStr "Roku Digital Clock") (Some dev1)))).
Proof.
  exact (proj1 (current_app_C6 srv_ok (fun _ => Some active_app_both) dev1 []
                  active_app_both eq_refl eq_refl)
           _ eq_refl).
Defined.

(** the POST the literal loop sends for one character *)
Definition literal_request {T : PyText} (self : Roku) (tok : string) (c : string) : request :=
  mkRequest "POST" (call_url self ("/keypress/" ++ tok ++ "_" ++ py_upper c)) None.

(** the POSTs the spec asks for: the uppercased character URL-path-encoded *)
Definition literal_spec_requests {T : PyText} (self : Roku) (tok : string) (s : string)
  : list request :=
  map (fun c => mkRequest "POST" (call_url self ("/keypress/" ++ tok ++ "_" ++ path_encode (py_upper c)))
                          None)
      (py_iter s).

Lemma command_literal {T : PyText} srv self args h :
  command srv self "literal" args h
  = match args with
    | [] => raise IndexError h
    | PStr s :: _ => literal_loop srv self "literal" (py_iter s) h
    | PInt _ :: _ => raise (TypeError "'int' object is not iterable") h
    | PNone :: _ => raise (TypeError "'NoneType' object is not iterable") h
    end.
Proof. destruct args as [| [] ]; reflexivity. Qed.

(** one step of the loop: the POST for [c], then the rest if it got a 200 *)
Lemma literal_loop_cons {T : PyText} srv self tok c cs h :
  dict_get (supported_keys self) "literal" = Some tok ->
  literal_loop srv self "literal" (c :: cs) h
  = let r := literal_request self tok c in
    if Z.eqb (status_code (srv h r)) 200
    then literal_loop srv self "literal" cs (h ++ [r])%list
    else ((h ++ [r])%list, Err (RokuException (content (srv h r)))).
Proof.
  intros Htok. cbn [literal_loop]. rewrite Htok. unfold bind. rewrite post_eq.
  fold (literal_request self tok c). unfold checked_content.
  destruct (Z.eqb _ 200); reflexivity.
Qed.

Lemma literal_loop_run {T : PyText} srv self tok cs h :
  dict_get (supported_keys self) "literal" = Some tok ->
  let reqs := map (literal_request self tok) cs in
  ((forall i rq, nth_error reqs i = Some rq ->
      status_code (srv (h ++ firstn i reqs)%list rq) = 200%Z) ->
   literal_loop srv self "literal" cs h = ((h ++ reqs)%list, Ok tt)) /\
  (forall k rq, nth_error reqs k = Some rq ->
   (forall i rq', (i < k)%nat -> nth_error reqs i = Some rq' ->
      status_code (srv (h ++ firstn i reqs)%list rq') = 200%Z) ->
   status_code (srv (h ++ firstn k reqs)%list rq) <> 200%Z ->
   literal_loop srv self "literal" cs h
   = ((h ++ firstn (S k) reqs)%list,
      Err (RokuException (content (srv (h ++ firstn k reqs)%list rq))))).
Proof.
  intros Htok. revert h.
  induction cs as [| c cs IH]; intros h; cbv zeta; cbn [map].
  - split.
    + intros _. cbn [literal_loop]. rewrite app_nil_r. reflexivity.
    + intros k rq Hk. destruct k; discriminate Hk.
  - rewrite (literal_loop_cons srv self tok c cs h Htok). cbv zeta.
    set (r := literal_request self tok c).
    set (reqs := map (literal_request self tok) cs).
    destruct (IH (h ++ [r])%list) as [IH1 IH2]. fold reqs in IH1, IH2.
    split.
    + intros Hall.
      pose proof (Hall 0%nat r eq_refl) as H0. cbn [firstn] in H0. rewrite app_nil_r in H0.
      rewrite H0. cbn [Z.eqb Pos.eqb].
      rewrite IH1, <- app_assoc; [reflexivity |].
      intros i rq Hi. rewrite <- app_assoc. exact (Hall (S i) rq Hi).
    + intros k rq Hk Hprev Hne. destruct k as [| k].
      * cbn [nth_error] in Hk. injection Hk as <-.
        cbn [firstn] in Hne |- *. rewrite app_nil_r in Hne |- *.
        destruct (Z.eqb_spec (status_code (srv h r)) 200); [contradiction | reflexivity].
      * pose proof (Hprev 0%nat r ltac:(lia) eq_refl) as H0.
        cbn [firstn] in H0. rewrite app_nil_r in H0.
        rewrite H0. cbn [Z.eqb Pos.eqb].
        cbn [nth_error firstn] in Hk, Hne |- *.
        rewrite (IH2 k rq Hk), <- !app_assoc; [reflexivity | |].
        -- intros i rq' Hi Hi'. rewrite <- app_assoc.
           exact (Hprev (S i) rq' ltac:(lia) Hi').
        -- rewrite <- app_assoc. exact Hne.
Qed.

(** C2, counterexample: the code puts the uppercased character into the
    path as it is, with no encoding: ["#"] is sent as [/keypress/Lit_#],
    not as the encoded [/keypress/Lit_%23].  And when the device answers
    with an error status, ["Hi!"] stops after its first POST instead of
    sending three.  (On the spec's own example ["Hi!"] with a device that
    answers 200, both readings agree.) *)
Lemma literal_C2_counterexample :
  fst (command (T:=ascii_text) srv_ok dev1 "literal" [PStr "#"] [])
    <> literal_spec_requests (T:=ascii_text) dev1 "Lit" "#" /\
  length (fst (command (T:=ascii_text) srv_fail dev1 "literal" [PStr "Hi!"] [])) = 1%nat /\
  fst (command (T:=ascii_text) srv_ok dev1 "literal" [PStr "Hi!"] [])
    = literal_spec_requests (T:=ascii_text) dev1 "Lit" "Hi!".
Proof.
  split; [| split].
  - vm_compute. discriminate.
  - reflexivity.
  - reflexivity.
Qed.

(** C2, as the code does it: with the literal token [tok] in the instance's
    table, [literal(s)] goes through the characters of [s] in order (one
    request each, so [len(s)] of them) and sends for each character [c] one
    POST to [/keypress/<tok>_<c.upper()>], the uppercased character put in
    as it is.  When each of these POSTs gets a 200, all [len(s)] are sent
    and the call returns normally.  When the POST of character [k] is the
    first that does not get a 200, exactly the first [k + 1] POSTs are sent
    and the call raises [RokuException] with the body of that response. *)
Theorem literal_C2 :
  forall (T : PyText) srv self s h tok,
  dict_get (supported_keys self) "literal" = Some tok ->
  let reqs := map (literal_request self tok) (py_iter s) in
  length reqs = length (py_iter s) /\
  ((forall i rq, nth_error reqs i = Some rq ->
      status_code (srv (h ++ firstn i reqs)%list rq) = 200%Z) ->
   command srv self "literal" [PStr s] h = ((h ++ reqs)%list, Ok tt)) /\
  (forall k rq, nth_error reqs k = Some rq ->
   (forall i rq', (i < k)%nat -> nth_error reqs i = Some rq' ->
      status_code (srv (h ++ firstn i reqs)%list rq') = 200%Z) ->
   status_code (srv (h ++ firstn k reqs)%list rq) <> 200%Z ->
   command srv self "literal" [PStr s] h
   = ((h ++ firstn (S k) reqs)%list,
      Err (RokuException (content (srv (h ++ firstn k reqs)%list rq))))).
Proof.
  intros T srv self s h tok Htok reqs.
  rewrite !command_literal. split; [apply length_map |].
  exact (literal_loop_run srv self tok (py_iter s) h Htok).
Qed.

Lemma literal_C2_witness :
  command (T:=ascii_text) srv_ok tv3 "literal" [PStr "Hi!"] []
  = ([mkRequest "POST" "http://192.168.1.22:8060/keypress/Lit_H" None;
      mkRequest "POST" "http://192.168.1.22:8060/keypress/Lit_I" None;
      mkRequest "POST" "http://192.168.1.22:8060/keypress/Lit_!" None], Ok tt) /\
  command (T:=ascii_text) srv_fail tv3 "literal" [PStr "Hi!"] []
  = ([mkRequest "POST" "http://192.168.1.22:8060/keypress/Lit_H" None],
     Err (RokuException "server error")).
Proof.
  split.
  - exact (proj1 (proj2 (literal_C2 ascii_text srv_ok tv3 "Hi!" [] "Lit" eq_refl))
             (fun _ _ _ => eq_refl)).
  - exact (proj2 (proj2 (literal_C2 ascii_text srv_fail tv3 "Hi!" [] "Lit" eq_refl))
             0%nat (mkRequest "POST" "http://192.168.1.22:8060/keypress/Lit_H" None) eq_refl
             ltac:(intros i rq' Hi; lia) ltac:(discriminate)).
Defined.

(** * Further properties of the client *)

(** A key command ([name] in the table, not a sensor, not ["literal"])
    sends exactly one POST to [/keypress/<token>] without parameters; any
    arguments are ignored; its only error is the protocol error. *)
Theorem keypress_command_one_post :
  forall (T : PyText) srv self name tok args h,
  str_in name SENSORS = false -> name <> "literal" ->
  dict_get (supported_keys self) name = Some tok ->
  let rq := mkRequest "POST" (call_url self ("/keypress/" ++ tok)) None in
  command srv self name args h
  = ((h ++ [rq])%list,
     if Z.eqb (status_code (srv h rq)) 200 then Ok tt
     else Err (RokuException (content (srv h rq)))).
Proof.
  intros T srv self name tok args h Hs Hl Ht rq.
  unfold command. rewrite Hs.
  apply String.eqb_neq in Hl. rewrite Hl, Ht.
  unfold bind. rewrite post_eq. fold rq. unfold checked_content.
  destruct (Z.eqb _ 200); reflexivity.
Qed.

Lemma keypress_command_one_post_witness :
  command (T:=ascii_text) srv_ok tv3 "volume_up" [PInt 5] []
  = ([mkRequest "POST" "http://192.168.1.22:8060/keypress/VolumeUp" None], Ok tt).
Proof.
  exact (keypress_command_one_post ascii_text srv_ok tv3 "volume_up" "VolumeUp" [PInt 5] []
           eq_refl ltac:(discriminate) eq_refl).
Defined.

(** An application that knows its device routes [launch()], [store()] and
    [icon] through that device: [launch()] never raises the cross-device
    error and sends one POST to [/launch/<id>]; [store()] one POST to
    [/launch/11]; [icon] one GET to [/query/icon/<id>], returning the body. *)
Theorem app_methods_with_roku :
  forall srv a r h,
  app_roku a = Some r ->
  let p := Some [("contentID", PStr (app_id a))] in
  let rl := mkRequest "POST" (call_url r ("/launch/" ++ app_id a)) p in
  let rs := mkRequest "POST" (call_url r "/launch/11") p in
  let ri := mkRequest "GET" (call_url r ("/query/icon/" ++ app_id a)) None in
  Application_launch srv a h
  = ((h ++ [rl])%list, match checked_content (srv h rl) with
                        | Ok _ => Ok PNone | Err e => Err e end) /\
  Application_store srv a h
  = ((h ++ [rs])%list, match checked_content (srv h rs) with
                        | Ok _ => Ok PNone | Err e => Err e end) /\
  Application_icon srv a h
  = ((h ++ [ri])%list, match checked_content (srv h ri) with
                        | Ok b => Ok (PStr b) | Err e => Err e end).
Proof.
  intros srv a r h Hr p rl rs ri.
  unfold Application_launch, Application_store, Application_icon. rewrite Hr.
  unfold launch, store, icon, bind. rewrite Hr. unfold roku_ne. rewrite Nat.eqb_refl.
  cbn [negb]. rewrite !post_eq, get_eq. fold p rl rs ri.
  repeat split; [destruct (checked_content (srv h rl)) |
                 destruct (checked_content (srv h rs)) |
                 destruct (checked_content (srv h ri))]; reflexivity.
Qed.

Lemma app_methods_with_roku_witness :
  Application_launch srv_ok (Application_new (PInt 12) (PStr "4.1") (PStr "Netflix") (Some dev1)) []
  = ([mkRequest "POST" "http://192.168.1.20:8060/launch/12" (Some [("contentID", PStr "12")])],
     Ok PNone).
Proof.
  exact (proj1 (app_methods_with_roku srv_ok
                  (Application_new (PInt 12) (PStr "4.1") (PStr "Netflix") (Some dev1))
                  dev1 [] eq_refl)).
Defined.

(** [touch(x, y, op)]: an [op] outside [TOUCH_OPS] raises [RokuException]
    before any request; a valid one sends one POST to [/input] with
    [touch.0.x], [touch.0.y], [touch.0.op] in that order and returns [None]. *)
Theorem touch_ops :
  forall srv self x y op h,
  (py_in_strs op TOUCH_OPS = false ->
     touch srv self x y op h
     = (h, Err (RokuException (py_str op ++ " is not a valid touch operation")))) /\
  (py_in_strs op TOUCH_OPS = true ->
     let rq := mkRequest "POST" (call_url self "/input")
                 (Some [("touch.0.x", x); ("touch.0.y", y); ("touch.0.op", op)]) in
     touch srv self x y op h
     = ((h ++ [rq])%list, if Z.eqb (status_code (srv h rq)) 200 then Ok PNone
                          else Err (RokuException (content (srv h rq))))).
Proof.
  intros srv self x y op h. unfold touch. split; intros Hop.
  - rewrite Hop. reflexivity.
  - rewrite Hop. cbn [negb]. unfold input, bind. rewrite post_eq.
    unfold checked_content. destruct (Z.eqb _ 200); reflexivity.
Qed.

Lemma touch_ops_witness :
  touch srv_ok dev1 (PInt 10) (PInt 20) (PStr "spin") []
  = ([], Err (RokuException "spin is not a valid touch operation")) /\
  touch srv_ok dev1 (PInt 10) (PInt 20) (PStr "down") []
  = ([mkRequest "POST" "http://192.168.1.20:8060/input"
        (Some [("touch.0.x", PInt 10); ("touch.0.y", PInt 20); ("touch.0.op", PStr "down")])],
     Ok PNone).
Proof.
  split.
  - exact (proj1 (touch_ops srv_ok dev1 (PInt 10) (PInt 20) (PStr "spin") []) eq_refl).
  - exact (proj2 (touch_ops srv_ok dev1 (PInt 10) (PInt 20) (PStr "down") []) eq_refl).
Defined.

(** [set_input] exists only on a [RokuTV] (on a base [Roku] the attribute
    raises [AttributeError]); an input outside [TV_INPUTS] raises
    [RokuException] before any request, a valid one sends one POST to
    [/keypress/Input<name>]. *)
Theorem set_input_behaviour :
  (forall oid hs p,
     roku_getattr (Roku_new oid hs p) "set_input"
     = Err (AttributeError "set_input is not a valid key or sensor") /\
     roku_getattr (RokuTV_new oid hs p) "set_input" = Ok (Regular "set_input")) /\
  (forall srv self v h,
     py_in_strs v TV_INPUTS = false ->
     set_input srv self v h = (h, Err (RokuException (py_str v ++ " is not a valid TV input")))) /\
  (forall srv self name h,
     In name TV_INPUTS ->
     let rq := mkRequest "POST" (call_url self ("/keypress/Input" ++ name)) None in
     set_input srv self (PStr name) h = ((h ++ [rq])%list, checked_content (srv h rq))).
Proof.
  split; [| split].
  - intros. split; reflexivity.
  - intros srv self v h Hv. unfold set_input. rewrite Hv. reflexivity.
  - intros srv self name h Hin rq. unfold set_input. cbn [py_in_strs py_str].
    assert (Hs : str_in name TV_INPUTS = true).
    { unfold str_in. apply existsb_exists. exists name. split; [exact Hin | apply String.eqb_refl]. }
    rewrite Hs. apply post_eq.
Qed.

Lemma set_input_behaviour_witness :
  set_input srv_ok tv3 (PStr "HDMI5") [] = ([], Err (RokuException "HDMI5 is not a valid TV input")) /\
  set_input srv_ok tv3 (PStr "HDMI2") []
  = ([mkRequest "POST" "http://192.168.1.22:8060/keypress/InputHDMI2" None], Ok "<ok/>").
Proof.
  split.
  - exact (proj1 (proj2 set_input_behaviour) srv_ok tv3 (PStr "HDMI5") [] eq_refl).
  - exact (proj2 (proj2 set_input_behaviour) srv_ok tv3 "HDMI2" [] ltac:(simpl; tauto)).
Defined.

Lemma string_append_nil (s : string) : (s ++ "")%string = s.
Proof. induction s as [| c s IH]; simpl; [reflexivity | now rewrite IH]. Qed.

Lemma find_map {A B} (p : B -> bool) (f : A -> B) (l : list A) :
  find p (map f l) = option_map f (find (fun x => p (f x)) l).
Proof. induction l as [| x l IH]; simpl; [reflexivity |]. destruct (p (f x)); auto. Qed.

Lemma get_parsed srv parse_xml self path h root {A} (k : xml -> M A) :
  let rq := mkRequest "GET" (call_url self path) None in
  status_code (srv h rq) = 200%Z ->
  parse_xml (content (srv h rq)) = Some root ->
  bind (_get srv self path None) (fun resp => bind (parse parse_xml resp) k) h
  = k root (h ++ [rq])%list.
Proof.
  intros rq Hs Hp. unfold bind at 1. rewrite get_eq. fold rq. unfold checked_content.
  rewrite Hs. cbn [Z.eqb Pos.eqb]. unfold parse, bind. rewrite Hp. reflexivity.
Qed.

(** [device_info]: with a 200 answer whose five fields are present, one GET
    to [/query/device-info] gives the four fields, the software version
    being ["<software-version>.<software-build>"]. *)
Theorem device_info_fields :
  forall srv parse_xml self h root n1 n2 n3 n4 n5 sv sb,
  let rq := mkRequest "GET" (call_url self "/query/device-info") None in
  status_code (srv h rq) = 200%Z ->
  parse_xml (content (srv h rq)) = Some root ->
  xml_find root "model-name" = Some n1 -> xml_find root "model-number" = Some n2 ->
  xml_find root "software-version" = Some n3 -> xml_find root "software-build" = Some n4 ->
  xml_find root "serial-number" = Some n5 ->
  xml_text n3 = PStr sv -> xml_text n4 = PStr sb ->
  device_info srv parse_xml self h
  = ((h ++ [rq])%list,
     Ok (mkDeviceInfo (xml_text n1) (xml_text n2) (PStr (sv ++ "." ++ sb)) (xml_text n5))).
Proof.
  intros srv parse_xml self h root n1 n2 n3 n4 n5 sv sb rq Hs Hp H1 H2 H3 H4 H5 Hv Hb.
  unfold device_info. rewrite (get_parsed srv parse_xml self _ h root _ Hs Hp).
  unfold bind, lift, find_text. rewrite H1, H2, H3, H4, H5, Hv, Hb.
  unfold py_join. cbn [py_join_from]. rewrite string_append_nil. reflexivity.
Qed.

Definition devinfo_xml : xml :=
  Elem "device-info" [] None
    [Elem "model-name" [] (Some "Roku 3") []; Elem "model-number" [] (Some "4200X") [];
     Elem "software-version" [] (Some "7.00") []; Elem "software-build" [] (Some "09044") [];
     Elem "serial-number" [] (Some "1GU48T017973") []; Elem "is-tv" [] (Some "false") []].

Lemma device_info_fields_witness :
  device_info srv_ok (fun _ => Some devinfo_xml) dev1 []
  = ([mkRequest "GET" "http://192.168.1.20:8060/query/device-info" None],
     Ok (mkDeviceInfo (PStr "Roku 3") (PStr "4200X") (PStr "7.00.09044") (PStr "1GU48T017973"))).
Proof.
  exact (device_info_fields srv_ok (fun _ => Some devinfo_xml) dev1 [] devinfo_xml
           (Elem "model-name" [] (Some "Roku 3") []) (Elem "model-number" [] (Some "4200X") [])
           (Elem "software-version" [] (Some "7.00") []) (Elem "software-build" [] (Some "09044") [])
           (Elem "serial-number" [] (Some "1GU48T017973") []) "7.00" "09044"
           eq_refl eq_refl eq_refl eq_refl eq_refl eq_refl eq_refl eq_refl eq_refl).
Defined.

(** the errors of the [device_info] getter itself *)
Lemma device_info_getter_errors :
  forall srv parse_xml self h root,
  let rq := mkRequest "GET" (call_url self "/query/device-info") None in
  status_code (srv h rq) = 200%Z ->
  parse_xml (content (srv h rq)) = Some root ->
  (forall f, In f ["model-name"; "model-number"; "software-version"; "software-build"] ->
     xml_find root f = None ->
     device_info srv parse_xml self h
     = ((h ++ [rq])%list, Err (AttributeError "'NoneType' object has no attribute 'text'"))) /\
  (forall n1 n2 n3 n4,
     xml_find root "model-name" = Some n1 -> xml_find root "model-number" = Some n2 ->
     xml_find root "software-version" = Some n3 -> xml_find root "software-build" = Some n4 ->
     xml_text n3 = PNone ->
     device_info srv parse_xml self h
     = ((h ++ [rq])%list,
        Err (TypeError "sequence item 0: expected str instance, NoneType found"))) /\
  (forall n1 n2 n3 n4 sv sb,
     xml_find root "model-name" = Some n1 -> xml_find root "model-number" = Some n2 ->
     xml_find root "software-version" = Some n3 -> xml_find root "software-build" = Some n4 ->
     xml_text n3 = PStr sv -> xml_text n4 = PStr sb ->
     xml_find root "serial-number" = None ->
     device_info srv parse_xml self h
     = ((h ++ [rq])%list, Err (AttributeError "'NoneType' object has no attribute 'text'"))).
Proof.
  intros srv parse_xml self h root rq Hs Hp.
  unfold device_info. rewrite (get_parsed srv parse_xml self _ h root _ Hs Hp).
  unfold bind, lift, find_text. split; [| split].
  - intros f Hin Hf.
    destruct Hin as [<- | [<- | [<- | [<- | []]]]]; rewrite Hf;
      repeat match goal with
             | |- context [xml_find root ?t] => destruct (xml_find root t)
             end; reflexivity.
  - intros n1 n2 n3 n4 H1 H2 H3 H4 Hv. rewrite H1, H2, H3, H4, Hv. reflexivity.
  - intros n1 n2 n3 n4 sv sb H1 H2 H3 H4 Hv Hb H5.
    rewrite H1, H2, H3, H4, Hv, Hb, H5. reflexivity.
Qed.


(** a property read whose getter raises [AttributeError] *)
Lemma property_get_attr_error {A} self name (g : M A) h h' msg :
  g h = (h', Err (AttributeError msg)) ->
  property_get self name g h
  = (h', match Roku___getattr__ self name with
         | Ok c => Ok (PropCommand c)
         | Err e => Err e
         end).
Proof. intros E. unfold property_get. rewrite E. reflexivity. Qed.

(** a property read whose getter returns or raises anything else *)
Lemma property_get_other {A} self name (g : M A) h h' r :
  g h = (h', r) ->
  (forall msg, r <> Err (AttributeError msg)) ->
  property_get self name g h
  = (h', match r with Ok a => Ok (PropValue a) | Err e => Err e end).
Proof.
  intros E Hr. unfold property_get. rewrite E.
  destruct r as [a | []]; try reflexivity. exfalso. eapply Hr. reflexivity.
Qed.

Lemma getattr_not_key self name :
  dict_in name (supported_keys self) = false -> str_in name SENSORS = false ->
  Roku___getattr__ self name = Err (AttributeError (name ++ " is not a valid key or sensor")).
Proof. intros Hk Hs. unfold Roku___getattr__. rewrite Hk, Hs. reflexivity. Qed.

(** Reading [roku.device_info] once the 200 answer is parsed: a missing
    [model-name], [model-number], [software-version] or [software-build]
    element, or with string versions a missing [serial-number], makes the
    getter raise [AttributeError]; Python then falls back to
    [Roku.__getattr__('device_info')], so the read raises
    [AttributeError('device_info is not a valid key or sensor')] (while
    ["device_info"] is not in the key table), or gives the command closure
    when ["device_info"] has been put in the table.  A software-version
    element without text raises [TypeError] from the join, which has no
    fallback.  In every case the one GET is all that was sent. *)
Theorem device_info_errors :
  forall srv parse_xml self h root,
  let rq := mkRequest "GET" (call_url self "/query/device-info") None in
  let missing := xml_find root "model-name" = None \/ xml_find root "model-number" = None \/
                 xml_find root "software-version" = None \/ xml_find root "software-build" = None \/
                 (exists n3 n4 sv sb,
                    xml_find root "software-version" = Some n3 /\
                    xml_find root "software-build" = Some n4 /\
                    xml_text n3 = PStr sv /\ xml_text n4 = PStr sb /\
                    xml_find root "serial-number" = None) in
  status_code (srv h rq) = 200%Z ->
  parse_xml (content (srv h rq)) = Some root ->
  (missing -> dict_in "device_info" (supported_keys self) = false ->
     device_info_prop srv parse_xml self h
     = ((h ++ [rq])%list, Err (AttributeError "device_info is not a valid key or sensor"))) /\
  (missing -> dict_in "device_info" (supported_keys self) = true ->
     device_info_prop srv parse_xml self h
     = ((h ++ [rq])%list, Ok (PropCommand (Command "device_info")))) /\
  (forall n1 n2 n3 n4,
     xml_find root "model-name" = Some n1 -> xml_find root "model-number" = Some n2 ->
     xml_find root "software-version" = Some n3 -> xml_find root "software-build" = Some n4 ->
     xml_text n3 = PNone ->
     device_info_prop srv parse_xml self h
     = ((h ++ [rq])%list,
        Err (TypeError "sequence item 0: expected str instance, NoneType found"))).
Proof.
  intros srv parse_xml self h root rq missing Hs Hp.
  destruct (device_info_getter_errors srv parse_xml self h root Hs Hp) as [E1 [E2 E3]].
  assert (Hm : missing ->
               device_info srv parse_xml self h
               = ((h ++ [rq])%list, Err (AttributeError "'NoneType' object has no attribute 'text'"))).
  { intros [H | [H | [H | [H | (n3 & n4 & sv & sb & H3 & H4 & Hv & Hb & H5)]]]].
    - exact (E1 "model-name" ltac:(simpl; tauto) H).
    - exact (E1 "model-number" ltac:(simpl; tauto) H).
    - exact (E1 "software-version" ltac:(simpl; tauto) H).
    - exact (E1 "software-build" ltac:(simpl; tauto) H).
    - destruct (xml_find root "model-name") as [n1 |] eqn:H1;
        [| exact (E1 "model-name" ltac:(simpl; tauto) H1)].
      destruct (xml_find root "model-number") as [n2 |] eqn:H2;
        [| exact (E1 "model-number" ltac:(simpl; tauto) H2)].
      exact (E3 n1 n2 n3 n4 sv sb eq_refl eq_refl H3 H4 Hv Hb H5). }
  split; [| split].
  - intros Hmiss Hk. unfold device_info_prop.
    rewrite (property_get_attr_error self "device_info" _ h _ _ (Hm Hmiss)).
    rewrite getattr_not_key by (exact Hk || reflexivity). reflexivity.
  - intros Hmiss Hk. unfold device_info_prop.
    rewrite (property_get_attr_error self "device_info" _ h _ _ (Hm Hmiss)).
    unfold Roku___getattr__. rewrite Hk. reflexivity.
  - intros n1 n2 n3 n4 H1 H2 H3 H4 Hv. unfold device_info_prop.
    rewrite (property_get_other self "device_info" _ h _ _ (E2 n1 n2 n3 n4 H1 H2 H3 H4 Hv)).
    + reflexivity.
    + intros msg. discriminate.
Qed.

Lemma device_info_errors_witness :
  device_info_prop srv_ok (fun _ => Some (Elem "device-info" [] None [])) dev1 []
  = ([mkRequest "GET" "http://192.168.1.20:8060/query/device-info" None],
     Err (AttributeError "device_info is not a valid key or sensor")).
Proof.
  exact (proj1 (device_info_errors srv_ok (fun _ => Some (Elem "device-info" [] None [])) dev1 []
                  (Elem "device-info" [] None []) eq_refl eq_refl)
           (or_introl eq_refl) eq_refl).
Defined.



Lemma apps_eq srv des self h l :
  let rq := mkRequest "GET" (call_url self "/query/apps") None in
  status_code (srv h rq) = 200%Z ->
  des (content (srv h rq)) = Ok l ->
  apps srv des self h = ((h ++ [rq])%list, Ok (map (set_roku self) l)).
Proof.
  intros rq Hs Hd. unfold apps, bind. rewrite get_eq. fold rq. unfold checked_content.
  rewrite Hs. cbn [Z.eqb Pos.eqb]. unfold lift. rewrite Hd. reflexivity.
Qed.

(** [apps]: one GET to [/query/apps]; the deserialized applications come
    back in order with id, version and name unchanged and [roku] set to the
    device asked. *)
Theorem apps_back_reference :
  forall srv des self h l,
  let rq := mkRequest "GET" (call_url self "/query/apps") None in
  status_code (srv h rq) = 200%Z ->
  des (content (srv h rq)) = Ok l ->
  exists l', apps srv des self h = ((h ++ [rq])%list, Ok l') /\
    Forall2 (fun a a' => app_id a' = app_id a /\ app_version a' = app_version a /\
                         app_name a' = app_name a /\ app_roku a' = Some self) l l'.
Proof.
  intros srv des self h l rq Hs Hd. exists (map (set_roku self) l).
  split; [exact (apps_eq srv des self h l Hs Hd) |].
  clear Hs Hd. induction l as [| a l IH]; simpl; constructor; [repeat split | exact IH].
Qed.

Lemma apps_back_reference_witness :
  exists l', apps srv_ok (fun _ => Ok [Application_new (PInt 12) (PStr "4.1") (PStr "Netflix") None])
               dev1 [] = ([mkRequest "GET" "http://192.168.1.20:8060/query/apps" None], Ok l') /\
    Forall2 (fun a a' => app_id a' = app_id a /\ app_version a' = app_version a /\
                         app_name a' = app_name a /\ app_roku a' = Some dev1)
            [Application_new (PInt 12) (PStr "4.1") (PStr "Netflix") None] l'.
Proof.
  exact (apps_back_reference srv_ok
           (fun _ => Ok [Application_new (PInt 12) (PStr "4.1") (PStr "Netflix") None])
           dev1 [] _ eq_refl eq_refl).
Defined.

(** [roku[key]]: [key] is turned into [str(key)] and looked up as a name
    first, in a first GET of [/query/apps]; only when no name matches is a
    second GET sent and the key looked up as an id.  The application found
    carries the device as [roku]. *)
Theorem getitem_name_then_id :
  forall srv des self key h l1,
  let rq := mkRequest "GET" (call_url self "/query/apps") None in
  let k := py_str key in
  status_code (srv h rq) = 200%Z ->
  des (content (srv h rq)) = Ok l1 ->
  (forall a, find (fun a => py_eqb (app_name a) (PStr k)) l1 = Some a ->
     __getitem__ srv des self key h = ((h ++ [rq])%list, Ok (Some (set_roku self a)))) /\
  (find (fun a => py_eqb (app_name a) (PStr k)) l1 = None ->
   forall l2,
     status_code (srv (h ++ [rq])%list rq) = 200%Z ->
     des (content (srv (h ++ [rq])%list rq)) = Ok l2 ->
     __getitem__ srv des self key h
     = ((h ++ [rq; rq])%list,
        Ok (option_map (set_roku self) (find (fun a => String.eqb (app_id a) k) l2)))).
Proof.
  intros srv des self key h l1 rq k Hs Hd.
  assert (E : forall K : option Application -> M (option Application),
             bind (_app_for_name srv des self k) K h
             = K (option_map (set_roku self)
                    (find (fun a => py_eqb (app_name a) (PStr k)) l1)) (h ++ [rq])%list).
  { intros K. unfold _app_for_name, apps_iter, apps_prop, property_get, bind. cbv beta.
    rewrite (apps_eq srv des self h l1 Hs Hd). cbv beta iota.
    unfold ret. rewrite find_map. reflexivity. }
  unfold __getitem__. fold k. rewrite E. split.
  - intros a Ha.
    replace (find (fun a => py_eqb (app_name a) (PStr k)) l1) with (Some a).
    reflexivity.
  - intros Hn l2 Hs2 Hd2.
    replace (find (fun a => py_eqb (app_name a) (PStr k)) l1) with (@None Application).
    cbn [option_map]. unfold _app_for_id, apps_iter, apps_prop, property_get, bind. cbv beta.
    rewrite (apps_eq srv des self _ l2 Hs2 Hd2). unfold ret. cbv beta iota.
    rewrite <- app_assoc, find_map. reflexivity.
Qed.

Definition listing : list Application :=
  [Application_new (PInt 12) (PStr "4.1") (PStr "Netflix") None;
   Application_new (PInt 837) (PStr "2.1") (PStr "YouTube") None].

Lemma getitem_name_then_id_witness :
  __getitem__ srv_ok (fun _ => Ok listing) dev1 (PInt 837) []
  = ([mkRequest "GET" "http://192.168.1.20:8060/query/apps" None;
      mkRequest "GET" "http://192.168.1.20:8060/query/apps" None],
     Ok (Some (Application_new (PInt 837) (PStr "2.1") (PStr "YouTube") (Some dev1)))).
Proof.
  exact (proj2 (getitem_name_then_id srv_ok (fun _ => Ok listing) dev1 (PInt 837) [] listing
                  eq_refl eq_refl) eq_refl listing eq_refl eq_refl).
Defined.

Definition str_le (a b : string) : Prop := String.leb a b = true.

Lemma insert_sorted_perm x l : Permutation (insert_sorted x l) (x :: l).
Proof.
  induction l as [| y l IH]; simpl; [reflexivity |].
  destruct (String.leb x y); [reflexivity |].
  rewrite IH. apply perm_swap.
Qed.

Lemma insert_sorted_hd y x l :
  str_le y x -> HdRel str_le y l -> HdRel str_le y (insert_sorted x l).
Proof.
  intros Hyx Hl. destruct l as [| z l]; simpl.
  - constructor; exact Hyx.
  - destruct (String.leb x z); constructor; [exact Hyx |]. inversion Hl; assumption.
Qed.

Lemma insert_sorted_sorted x l : Sorted str_le l -> Sorted str_le (insert_sorted x l).
Proof.
  induction l as [| y l IH]; intros Hs; simpl.
  - repeat constructor.
  - destruct (String.leb x y) eqn:Exy.
    + constructor; [exact Hs | constructor; exact Exy].
    + apply Sorted_inv in Hs as [Hs Hhd]. constructor; [apply IH; exact Hs |].
      apply insert_sorted_hd; [| exact Hhd].
      destruct (String.leb_total x y) as [H | H]; [congruence | exact H].
Qed.

(** [commands] lists the names of the instance's key table, each once, in
    ascending string order. *)
Theorem commands_sorted_keys :
  forall self,
  Sorted str_le (commands self) /\
  Permutation (commands self) (map fst (supported_keys self)).
Proof.
  intros self. unfold commands, sorted_strs.
  induction (map fst (supported_keys self)) as [| k ks [IHs IHp]]; simpl.
  - split; constructor.
  - split.
    + apply insert_sorted_sorted, IHs.
    + rewrite insert_sorted_perm. constructor. exact IHp.
Qed.

(** A [RokuTV]'s key table answers each TV key with its TV token and every
    other name as the base table does; so every base key keeps its token,
    and [is_tv] tells the two classes apart. *)
Theorem rokutv_key_table :
  forall oid hs p,
  (forall k, dict_get (supported_keys (RokuTV_new oid hs p)) k
             = match dict_get ROKUTV_KEYS k with
               | Some v => Some v
               | None => dict_get ECP_KEYS k
               end) /\
  (forall k v, dict_get (supported_keys (Roku_new oid hs p)) k = Some v ->
               dict_get (supported_keys (RokuTV_new oid hs p)) k = Some v) /\
  is_tv (RokuTV_new oid hs p) = true /\ is_tv (Roku_new oid hs p) = false.
Proof.
  intros oid hs p.
  assert (Hk : forall k, dict_get (supported_keys (RokuTV_new oid hs p)) k
             = match dict_get ROKUTV_KEYS k with
               | Some v => Some v
               | None => dict_get ECP_KEYS k
               end).
  { intros k. unfold RokuTV_new, Roku_new, dict_update, ECP_KEYS, ROKUTV_KEYS. simpl.
    repeat match goal with
           | |- context [String.eqb k ?s] =>
               destruct (String.eqb_spec k s) as [-> | ?]; [reflexivity |]
           end.
    reflexivity. }
  split; [exact Hk | split; [| split; reflexivity]].
  intros k v Hv. rewrite Hk. cbn [supported_keys Roku_new] in Hv.
  unfold ROKUTV_KEYS. cbn [dict_get].
  repeat match goal with
         | |- context [String.eqb k ?s] =>
             destruct (String.eqb_spec k s) as [-> | ?]; [discriminate Hv |]
         end.
  exact Hv.
Qed.

(** the probe [Roku.discover] sends for one location *)
Definition probe_request (uh : string -> string) (up : string -> pyval) (loc : string) : request :=
  mkRequest "GET" (call_url (Roku_new 0 (uh loc) (up loc)) "/query/device-info") None.

(** [discover] never drops a location: when it returns, it returns one
    device per location, in order, with that location's host and port,
    after exactly one GET of [/query/device-info] per location; each
    device's key table is the TV table for a [RokuTV] and the base table
    otherwise. *)
Theorem discover_one_device_per_location :
  forall srv parse_xml uh up locs next h devs,
  snd (discover_from srv parse_xml uh up next locs h) = Ok devs ->
  fst (discover_from srv parse_xml uh up next locs h)
    = (h ++ map (probe_request uh up) locs)%list /\
  Forall2 (fun loc dev =>
             host dev = uh loc /\ port dev = up loc /\
             supported_keys dev = if is_tv dev then dict_update ECP_KEYS ROKUTV_KEYS
                                  else ECP_KEYS) locs devs.
Proof.
  intros srv parse_xml uh up locs.
  induction locs as [| loc rest IH]; intros next h devs.
  - simpl. intros H. inversion H; subst. rewrite app_nil_r. split; [reflexivity | constructor].
  - destruct (discover_from srv parse_xml uh up next (loc :: rest) h) as [hf rf] eqn:Ed.
    cbn [snd fst]. intros Hd. subst rf.
    cbn [discover_from] in Ed. unfold bind at 1 in Ed. rewrite get_eq in Ed.
    change (mkRequest "GET" (call_url (Roku_new next (uh loc) (up loc)) "/query/device-info") None)
      with (probe_request uh up loc) in Ed.
    destruct (checked_content (srv h (probe_request uh up loc))) as [resp | e];
      [| discriminate Ed].
    unfold bind, parse in Ed.
    destruct (parse_xml resp) as [root |]; [| discriminate Ed].
    unfold ret, lift in Ed.
    destruct (find_text root "is-tv") as [t | e]; [| discriminate Ed].
    destruct (discover_from srv parse_xml uh up (S (S next)) rest
                (h ++ [probe_request uh up loc])%list) as [h' [rokus | e]] eqn:Er;
      [| discriminate Ed].
    inversion Ed; subst hf.
    destruct (IH (S (S next)) (h ++ [probe_request uh up loc])%list rokus)
      as [Hh Hf]; [rewrite Er; reflexivity |].
    rewrite Er in Hh. cbn [fst] in Hh. split.
    + rewrite Hh, <- app_assoc. reflexivity.
    + constructor; [| exact Hf].
      destruct (py_eqb t (PStr "true")); repeat split.
Qed.

Lemma discover_one_device_per_location_witness :
  let locs := ["http://192.168.1.20:8060/"; "http://192.168.1.22:8060/"] in
  let uh := fun loc => if String.eqb loc "http://192.168.1.20:8060/"
                       then "192.168.1.20" else "192.168.1.22" in
  let up := fun _ : string => PInt 8060 in
  fst (discover_from srv_ok (fun _ => Some devinfo_xml) uh up 10 locs [])
    = map (probe_request uh up) locs /\
  Forall2 (fun loc dev =>
             host dev = uh loc /\ port dev = up loc /\
             supported_keys dev = if is_tv dev then dict_update ECP_KEYS ROKUTV_KEYS
                                  else ECP_KEYS) locs
          [Roku_new 10 "192.168.1.20" (PInt 8060); Roku_new 12 "192.168.1.22" (PInt 8060)].
Proof.
  intros locs uh up.
  exact (discover_one_device_per_location srv_ok (fun _ => Some devinfo_xml) uh up locs 10 []
           _ eq_refl).
Defined.

(** When the device answers each request the same way whatever came
    before, [discover] makes a location's device a [RokuTV] exactly when
    its device-info answer has an [is-tv] element whose text is ["true"]. *)
Theorem discover_tv_iff_is_tv_true :
  forall answer parse_xml uh up locs next h devs,
  snd (discover_from (fun _ => answer) parse_xml uh up next locs h) = Ok devs ->
  Forall2 (fun loc dev =>
             is_tv dev = true <->
             exists root n,
               checked_content (answer (probe_request uh up loc)) = Ok (content (answer (probe_request uh up loc))) /\
               parse_xml (content (answer (probe_request uh up loc))) = Some root /\
               xml_find root "is-tv" = Some n /\ xml_text n = PStr "true") locs devs.
Proof.
  intros answer parse_xml uh up locs.
  induction locs as [| loc rest IH]; intros next h devs.
  - simpl. intros H. inversion H; subst. constructor.
  - destruct (discover_from (fun _ => answer) parse_xml uh up next (loc :: rest) h)
      as [hf rf] eqn:Ed.
    cbn [snd]. intros Hd. subst rf.
    cbn [discover_from] in Ed. unfold bind at 1 in Ed. rewrite get_eq in Ed.
    change (mkRequest "GET" (call_url (Roku_new next (uh loc) (up loc)) "/query/device-info") None)
      with (probe_request uh up loc) in Ed.
    destruct (checked_content (answer (probe_request uh up loc))) as [resp | e] eqn:Ec;
      [| discriminate Ed].
    assert (Hresp : resp = content (answer (probe_request uh up loc))).
    { unfold checked_content in Ec. destruct (Z.eqb _ 200); inversion Ec; reflexivity. }
    unfold bind, parse in Ed.
    destruct (parse_xml resp) as [root |] eqn:Ep; [| discriminate Ed].
    unfold ret, lift in Ed.
    destruct (find_text root "is-tv") as [t | e] eqn:Et; [| discriminate Ed].
    destruct (discover_from (fun _ => answer) parse_xml uh up (S (S next)) rest
                (h ++ [probe_request uh up loc])%list) as [h' [rokus | e]] eqn:Er;
      [| discriminate Ed].
    inversion Ed; subst hf.
    constructor.
    + unfold find_text in Et.
      destruct (xml_find root "is-tv") as [n |] eqn:En; [| discriminate].
      inversion Et; subst t. split.
      * intros Htv. exists root, n. rewrite <- Hresp. repeat split; auto.
        destruct (py_eqb (xml_text n) (PStr "true")) eqn:Eq; [| discriminate].
        destruct (xml_text n); try discriminate. cbn in Eq.
        apply String.eqb_eq in Eq. subst. reflexivity.
      * intros [root' [n' [_ [Hp' [Hn' Ht']]]]].
        rewrite <- Hresp in Hp'. rewrite Ep in Hp'. inversion Hp'; subst root'.
        rewrite En in Hn'. inversion Hn'; subst n'. rewrite Ht'. reflexivity.
    + apply (IH (S (S next)) (h ++ [probe_request uh up loc])%list). rewrite Er. reflexivity.
Qed.

Lemma discover_tv_iff_is_tv_true_witness :
  Forall2 (fun loc dev =>
             is_tv dev = true <->
             exists root n,
               checked_content (mkResponse 200 "<ok/>") = Ok (content (mkResponse 200 "<ok/>")) /\
               (fun _ : string => Some devinfo_xml) "<ok/>" = Some root /\
               xml_find root "is-tv" = Some n /\ xml_text n = PStr "true")
          ["http://192.168.1.20:8060/"] [Roku_new 0 "192.168.1.20" (PInt 8060)].
Proof.
  exact (discover_tv_iff_is_tv_true (fun _ => mkResponse 200 "<ok/>") (fun _ => Some devinfo_xml)
           (fun _ => "192.168.1.20") (fun _ => PInt 8060) ["http://192.168.1.20:8060/"] 0 []
           _ eq_refl).
Defined.

(** A location whose device-info probe gets a non-200 answer makes
    [discover] raise [RokuException] with that body at once: the failure is
    surfaced, not skipped, and no later location is probed. *)
Theorem discover_probe_failure :
  forall srv parse_xml uh up loc rest next h,
  status_code (srv h (probe_request uh up loc)) <> 200%Z ->
  discover_from srv parse_xml uh up next (loc :: rest) h
  = ((h ++ [probe_request uh up loc])%list,
     Err (RokuException (content (srv h (probe_request uh up loc))))).
Proof.
  intros srv parse_xml uh up loc rest next h Hs.
  cbn [discover_from]. unfold bind at 1. rewrite get_eq.
  change (mkRequest "GET" (call_url (Roku_new next (uh loc) (up loc)) "/query/device-info") None)
    with (probe_request uh up loc).
  unfold checked_content. apply Z.eqb_neq in Hs. rewrite Hs. reflexivity.
Qed.

Lemma discover_probe_failure_witness :
  discover_from srv_fail (fun _ => Some devinfo_xml) (fun _ => "192.168.1.20")
    (fun _ => PInt 8060) 0 ["http://192.168.1.20:8060/"; "http://192.168.1.21:8060/"] []
  = ([probe_request (fun _ => "192.168.1.20") (fun _ => PInt 8060) "http://192.168.1.20:8060/"],
     Err (RokuException "server error")).
Proof.
  exact (discover_probe_failure srv_fail (fun _ => Some devinfo_xml) (fun _ => "192.168.1.20")
           (fun _ => PInt 8060) "http://192.168.1.20:8060/" ["http://192.168.1.21:8060/"] 0 []
           ltac:(cbv; discriminate)).
Defined.

Lemma py_eqb_sym a b : py_eqb a b = py_eqb b a.
Proof. destruct a, b; simpl; try reflexivity; [apply Z.eqb_sym | apply String.eqb_sym]. Qed.

Lemma py_eqb_trans a b c : py_eqb a b = true -> py_eqb b c = true -> py_eqb a c = true.
Proof.
  destruct a, b, c; simpl; try discriminate; auto.
  - rewrite !Z.eqb_eq. congruence.
  - rewrite !String.eqb_eq. congruence.
Qed.

(** [Application.__eq__] restricted to applications is an equivalence:
    every application equals itself, and equality is symmetric and
    transitive. *)
Theorem Application_eq_equivalence :
  (forall a, Application_eq a (OApp a) = true) /\
  (forall a b, Application_eq a (OApp b) = Application_eq b (OApp a)) /\
  (forall a b c, Application_eq a (OApp b) = true -> Application_eq b (OApp c) = true ->
                 Application_eq a (OApp c) = true).
Proof.
  split; [| split].
  - intros a. simpl. rewrite String.eqb_refl. apply py_eqb_refl.
  - intros a b. simpl. rewrite String.eqb_sym, py_eqb_sym. reflexivity.
  - intros a b c. simpl. rewrite !andb_true_iff, !String.eqb_eq.
    intros [Hi1 Hv1] [Hi2 Hv2]. split; [congruence | eapply py_eqb_trans; eauto].
Qed.

Lemma Application_eq_equivalence_witness :
  Application_eq (Application_new (PInt 12) (PStr "4.1") (PStr "Netflix") None)
    (OApp (Application_new (PStr "12") (PStr "4.1") PNone (Some dev2))) = true.
Proof.
  exact (proj2 (proj2 Application_eq_equivalence)
           (Application_new (PInt 12) (PStr "4.1") (PStr "Netflix") None)
           (Application_new (PStr "12") (PStr "4.1") (PStr "Netflix") (Some dev1))
           (Application_new (PStr "12") (PStr "4.1") PNone (Some dev2)) eq_refl eq_refl).
Defined.

Lemma rokutv_key_table_witness :
  dict_get (supported_keys tv3) "home" = Some "Home".
Proof.
  exact (proj1 (proj2 (rokutv_key_table 3 "192.168.1.22" (PInt 8060))) "home" "Home" eq_refl).
Defined.
